(** * Shallow embedding of src/implementors/core/marker/trait.Unpin.js

    The file is a rustdoc-generated script:

      (function() {var implementors = { "actix": [...], "actix_broker": [...] };
       if (window.register_implementors) {window.register_implementors(implementors);}
       else {window.pending_implementors = implementors;}})()

    JS values are modelled by [jsval]; the global object [window] is a
    finite map from property names to values (a missing property reads as
    [undefined]).  The registration hook is an arbitrary JS function: its
    behaviour is a parameter [hook] of the semantics, taking the function's
    identity, the argument list and the window, and returning a completion
    together with the window it leaves.  Besides its completion and final
    window, the fragment reports the list of its own effects (calls it makes
    and properties it writes). *)

From Stdlib Require Import String Ascii ZArith List Bool.
From stdpp Require Import base gmap strings list.
Import ListNotations.
Open Scope string_scope.
#[local] Set Warnings "-register-all".

(** ** JS values *)

(** Numbers are modelled as integers: every number of the fragment is the
    integer literal [1]. Functions are identified by an object id. *)
Inductive jsval : Type :=
  | JUndef : jsval
  | JNull : jsval
  | JBool (b : bool) : jsval
  | JNum (z : Z) : jsval
  | JStr (s : string) : jsval
  | JArr (elems : list jsval) : jsval
  | JObj (props : list (string * jsval)) : jsval
  | JFun (id : nat) : jsval.

(** JS [ToBoolean], the test performed by [if (...)]. *)
Definition truthy (v : jsval) : bool :=
  match v with
  | JUndef | JNull => false
  | JBool b => b
  | JNum z => negb (Z.eqb z 0)
  | JStr s => negb (String.eqb s "")
  | JArr _ | JObj _ | JFun _ => true
  end.

(** Decoding of the escapes of a JS double-quoted string literal, as they
    occur in the source: [\n] is a newline and the escaped double quote is
    written here with a backquote after the backslash (the source writes
    a double quote there). Any other escaped character stands for itself. *)
Fixpoint js (s : string) : string :=
  match s with
  | EmptyString => EmptyString
  | String "\" (String c rest) =>
      let d := if Ascii.eqb c "`" then "034"%char
               else if Ascii.eqb c "n" then "010"%char
               else c in
      String d (js rest)
  | String c rest => String c (js rest)
  end.

(** ** The compiled-in implementor table (lines 1-3 of the source) *)

Definition implementors : jsval := JObj [
  ("actix", JArr [
    JArr [JStr (js "impl <a class=\`trait\` href=\`https://doc.rust-lang.org/nightly/core/marker/trait.Unpin.html\` title=\`trait core::marker::Unpin\`>Unpin</a> for <a class=\`enum\` href=\`actix/prelude/enum.ActorState.html\` title=\`enum actix::prelude::ActorState\`>ActorState</a>"); JNum 1; JArr [JStr "actix::actor::ActorState"]];
    JArr [JStr (js "impl <a class=\`trait\` href=\`https://doc.rust-lang.org/nightly/core/marker/trait.Unpin.html\` title=\`trait core::marker::Unpin\`>Unpin</a> for <a class=\`enum\` href=\`actix/prelude/enum.Running.html\` title=\`enum actix::prelude::Running\`>Running</a>"); JNum 1; JArr [JStr "actix::actor::Running"]];
    JArr [JStr (js "impl <a class=\`trait\` href=\`https://doc.rust-lang.org/nightly/core/marker/trait.Unpin.html\` title=\`trait core::marker::Unpin\`>Unpin</a> for <a class=\`struct\` href=\`actix/prelude/struct.SpawnHandle.html\` title=\`struct actix::prelude::SpawnHandle\`>SpawnHandle</a>"); JNum 1; JArr [JStr "actix::actor::SpawnHandle"]];
    JArr [JStr (js "impl&lt;A&gt; <a class=\`trait\` href=\`https://doc.rust-lang.org/nightly/core/marker/trait.Unpin.html\` title=\`trait core::marker::Unpin\`>Unpin</a> for <a class=\`struct\` href=\`actix/prelude/struct.Context.html\` title=\`struct actix::prelude::Context\`>Context</a>&lt;A&gt;"); JNum 1; JArr [JStr "actix::context::Context"]];
    JArr [JStr (js "impl&lt;A&gt; <a class=\`trait\` href=\`https://doc.rust-lang.org/nightly/core/marker/trait.Unpin.html\` title=\`trait core::marker::Unpin\`>Unpin</a> for <a class=\`struct\` href=\`actix/dev/struct.ContextParts.html\` title=\`struct actix::dev::ContextParts\`>ContextParts</a>&lt;A&gt;"); JNum 1; JArr [JStr "actix::contextimpl::ContextParts"]];
    JArr [JStr (js "impl&lt;A, C&gt; <a class=\`trait\` href=\`https://doc.rust-lang.org/nightly/core/marker/trait.Unpin.html\` title=\`trait core::marker::Unpin\`>Unpin</a> for <a class=\`struct\` href=\`actix/dev/struct.ContextFut.html\` title=\`struct actix::dev::ContextFut\`>ContextFut</a>&lt;A, C&gt;"); JNum 1; JArr [JStr "actix::contextimpl::ContextFut"]];
    JArr [JStr (js "impl&lt;M&gt; <a class=\`trait\` href=\`https://doc.rust-lang.org/nightly/core/marker/trait.Unpin.html\` title=\`trait core::marker::Unpin\`>Unpin</a> for <a class=\`struct\` href=\`actix/prelude/struct.MessageResult.html\` title=\`struct actix::prelude::MessageResult\`>MessageResult</a>&lt;M&gt;<span class=\`where fmt-newline\`>where\n    &lt;M as <a class=\`trait\` href=\`actix/prelude/trait.Message.html\` title=\`trait actix::prelude::Message\`>Message</a>&gt;::<a class=\`associatedtype\` href=\`actix/prelude/trait.Message.html#associatedtype.Result\` title=\`type actix::prelude::Message::Result\`>Result</a>: <a class=\`trait\` href=\`https://doc.rust-lang.org/nightly/core/marker/trait.Unpin.html\` title=\`trait core::marker::Unpin\`>Unpin</a>,</span>"); JNum 1; JArr [JStr "actix::handler::MessageResult"]];
    JArr [JStr (js "impl&lt;A, T&gt; <a class=\`trait\` href=\`https://doc.rust-lang.org/nightly/core/marker/trait.Unpin.html\` title=\`trait core::marker::Unpin\`>Unpin</a> for <a class=\`struct\` href=\`actix/prelude/struct.AtomicResponse.html\` title=\`struct actix::prelude::AtomicResponse\`>AtomicResponse</a>&lt;A, T&gt;"); JNum 1; JArr [JStr "actix::handler::AtomicResponse"]];
    JArr [JStr (js "impl&lt;I&gt; <a class=\`trait\` href=\`https://doc.rust-lang.org/nightly/core/marker/trait.Unpin.html\` title=\`trait core::marker::Unpin\`>Unpin</a> for <a class=\`struct\` href=\`actix/prelude/struct.Response.html\` title=\`struct actix::prelude::Response\`>Response</a>&lt;I&gt;<span class=\`where fmt-newline\`>where\n    I: <a class=\`trait\` href=\`https://doc.rust-lang.org/nightly/core/marker/trait.Unpin.html\` title=\`trait core::marker::Unpin\`>Unpin</a>,</span>"); JNum 1; JArr [JStr "actix::handler::Response"]];
    JArr [JStr (js "impl&lt;A, I&gt; <a class=\`trait\` href=\`https://doc.rust-lang.org/nightly/core/marker/trait.Unpin.html\` title=\`trait core::marker::Unpin\`>Unpin</a> for <a class=\`struct\` href=\`actix/prelude/struct.ActorResponse.html\` title=\`struct actix::prelude::ActorResponse\`>ActorResponse</a>&lt;A, I&gt;<span class=\`where fmt-newline\`>where\n    I: <a class=\`trait\` href=\`https://doc.rust-lang.org/nightly/core/marker/trait.Unpin.html\` title=\`trait core::marker::Unpin\`>Unpin</a>,</span>"); JNum 1; JArr [JStr "actix::handler::ActorResponse"]];
    JArr [JStr (js "impl&lt;A&gt; <a class=\`trait\` href=\`https://doc.rust-lang.org/nightly/core/marker/trait.Unpin.html\` title=\`trait core::marker::Unpin\`>Unpin</a> for <a class=\`struct\` href=\`actix/dev/channel/struct.AddressSender.html\` title=\`struct actix::dev::channel::AddressSender\`>AddressSender</a>&lt;A&gt;"); JNum 1; JArr [JStr "actix::address::channel::AddressSender"]];
    JArr [JStr (js "impl&lt;A&gt; <a class=\`trait\` href=\`https://doc.rust-lang.org/nightly/core/marker/trait.Unpin.html\` title=\`trait core::marker::Unpin\`>Unpin</a> for <a class=\`struct\` href=\`actix/dev/channel/struct.AddressReceiver.html\` title=\`struct actix::dev::channel::AddressReceiver\`>AddressReceiver</a>&lt;A&gt;"); JNum 1; JArr [JStr "actix::address::channel::AddressReceiver"]];
    JArr [JStr (js "impl&lt;A&gt; <a class=\`trait\` href=\`https://doc.rust-lang.org/nightly/core/marker/trait.Unpin.html\` title=\`trait core::marker::Unpin\`>Unpin</a> for <a class=\`struct\` href=\`actix/dev/struct.Envelope.html\` title=\`struct actix::dev::Envelope\`>Envelope</a>&lt;A&gt;"); JNum 1; JArr [JStr "actix::address::envelope::Envelope"]];
    JArr [JStr (js "impl&lt;T&gt; <a class=\`trait\` href=\`https://doc.rust-lang.org/nightly/core/marker/trait.Unpin.html\` title=\`trait core::marker::Unpin\`>Unpin</a> for <a class=\`enum\` href=\`actix/prelude/enum.SendError.html\` title=\`enum actix::prelude::SendError\`>SendError</a>&lt;T&gt;<span class=\`where fmt-newline\`>where\n    T: <a class=\`trait\` href=\`https://doc.rust-lang.org/nightly/core/marker/trait.Unpin.html\` title=\`trait core::marker::Unpin\`>Unpin</a>,</span>"); JNum 1; JArr [JStr "actix::address::SendError"]];
    JArr [JStr (js "impl <a class=\`trait\` href=\`https://doc.rust-lang.org/nightly/core/marker/trait.Unpin.html\` title=\`trait core::marker::Unpin\`>Unpin</a> for <a class=\`enum\` href=\`actix/prelude/enum.MailboxError.html\` title=\`enum actix::prelude::MailboxError\`>MailboxError</a>"); JNum 1; JArr [JStr "actix::address::MailboxError"]];
    JArr [JStr (js "impl&lt;A&gt; <a class=\`trait\` href=\`https://doc.rust-lang.org/nightly/core/marker/trait.Unpin.html\` title=\`trait core::marker::Unpin\`>Unpin</a> for <a class=\`struct\` href=\`actix/prelude/struct.Addr.html\` title=\`struct actix::prelude::Addr\`>Addr</a>&lt;A&gt;"); JNum 1; JArr [JStr "actix::address::Addr"]];
    JArr [JStr (js "impl&lt;A&gt; <a class=\`trait\` href=\`https://doc.rust-lang.org/nightly/core/marker/trait.Unpin.html\` title=\`trait core::marker::Unpin\`>Unpin</a> for <a class=\`struct\` href=\`actix/struct.WeakAddr.html\` title=\`struct actix::WeakAddr\`>WeakAddr</a>&lt;A&gt;"); JNum 1; JArr [JStr "actix::address::WeakAddr"]];
    JArr [JStr (js "impl&lt;M&gt; <a class=\`trait\` href=\`https://doc.rust-lang.org/nightly/core/marker/trait.Unpin.html\` title=\`trait core::marker::Unpin\`>Unpin</a> for <a class=\`struct\` href=\`actix/prelude/struct.Recipient.html\` title=\`struct actix::prelude::Recipient\`>Recipient</a>&lt;M&gt;"); JNum 1; JArr [JStr "actix::address::Recipient"]];
    JArr [JStr (js "impl&lt;M&gt; <a class=\`trait\` href=\`https://doc.rust-lang.org/nightly/core/marker/trait.Unpin.html\` title=\`trait core::marker::Unpin\`>Unpin</a> for <a class=\`struct\` href=\`actix/struct.WeakRecipient.html\` title=\`struct actix::WeakRecipient\`>WeakRecipient</a>&lt;M&gt;"); JNum 1; JArr [JStr "actix::address::WeakRecipient"]];
    JArr [JStr (js "impl&lt;A&gt; <a class=\`trait\` href=\`https://doc.rust-lang.org/nightly/core/marker/trait.Unpin.html\` title=\`trait core::marker::Unpin\`>Unpin</a> for <a class=\`struct\` href=\`actix/dev/struct.Mailbox.html\` title=\`struct actix::dev::Mailbox\`>Mailbox</a>&lt;A&gt;"); JNum 1; JArr [JStr "actix::mailbox::Mailbox"]];
    JArr [JStr (js "impl&lt;T&gt; <a class=\`trait\` href=\`https://doc.rust-lang.org/nightly/core/marker/trait.Unpin.html\` title=\`trait core::marker::Unpin\`>Unpin</a> for <a class=\`struct\` href=\`actix/actors/mocker/struct.Mocker.html\` title=\`struct actix::actors::mocker::Mocker\`>Mocker</a>&lt;T&gt;"); JNum 1; JArr [JStr "actix::actors::mocker::Mocker"]];
    JArr [JStr (js "impl&lt;T, E&gt; <a class=\`trait\` href=\`https://doc.rust-lang.org/nightly/core/marker/trait.Unpin.html\` title=\`trait core::marker::Unpin\`>Unpin</a> for <a class=\`struct\` href=\`actix/io/struct.Writer.html\` title=\`struct actix::io::Writer\`>Writer</a>&lt;T, E&gt;"); JNum 1; JArr [JStr "actix::io::Writer"]];
    JArr [JStr (js "impl&lt;I, T, U&gt; <a class=\`trait\` href=\`https://doc.rust-lang.org/nightly/core/marker/trait.Unpin.html\` title=\`trait core::marker::Unpin\`>Unpin</a> for <a class=\`struct\` href=\`actix/io/struct.FramedWrite.html\` title=\`struct actix::io::FramedWrite\`>FramedWrite</a>&lt;I, T, U&gt;<span class=\`where fmt-newline\`>where\n    U: <a class=\`trait\` href=\`https://doc.rust-lang.org/nightly/core/marker/trait.Unpin.html\` title=\`trait core::marker::Unpin\`>Unpin</a>,</span>"); JNum 1; JArr [JStr "actix::io::FramedWrite"]];
    JArr [JStr (js "impl&lt;I, S&gt; <a class=\`trait\` href=\`https://doc.rust-lang.org/nightly/core/marker/trait.Unpin.html\` title=\`trait core::marker::Unpin\`>Unpin</a> for <a class=\`struct\` href=\`actix/io/struct.SinkWrite.html\` title=\`struct actix::io::SinkWrite\`>SinkWrite</a>&lt;I, S&gt;"); JNum 1; JArr [JStr "actix::io::SinkWrite"]];
    JArr [JStr (js "impl <a class=\`trait\` href=\`https://doc.rust-lang.org/nightly/core/marker/trait.Unpin.html\` title=\`trait core::marker::Unpin\`>Unpin</a> for <a class=\`struct\` href=\`actix/registry/struct.Registry.html\` title=\`struct actix::registry::Registry\`>Registry</a>"); JNum 1; JArr [JStr "actix::registry::Registry"]];
    JArr [JStr (js "impl <a class=\`trait\` href=\`https://doc.rust-lang.org/nightly/core/marker/trait.Unpin.html\` title=\`trait core::marker::Unpin\`>Unpin</a> for <a class=\`struct\` href=\`actix/registry/struct.SystemRegistry.html\` title=\`struct actix::registry::SystemRegistry\`>SystemRegistry</a>"); JNum 1; JArr [JStr "actix::registry::SystemRegistry"]];
    JArr [JStr (js "impl&lt;A&gt; <a class=\`trait\` href=\`https://doc.rust-lang.org/nightly/core/marker/trait.Unpin.html\` title=\`trait core::marker::Unpin\`>Unpin</a> for <a class=\`struct\` href=\`actix/sync/struct.SyncArbiter.html\` title=\`struct actix::sync::SyncArbiter\`>SyncArbiter</a>&lt;A&gt;"); JNum 1; JArr [JStr "actix::sync::SyncArbiter"]];
    JArr [JStr (js "impl&lt;A&gt; <a class=\`trait\` href=\`https://doc.rust-lang.org/nightly/core/marker/trait.Unpin.html\` title=\`trait core::marker::Unpin\`>Unpin</a> for <a class=\`struct\` href=\`actix/sync/struct.SyncContext.html\` title=\`struct actix::sync::SyncContext\`>SyncContext</a>&lt;A&gt;"); JNum 1; JArr [JStr "actix::sync::SyncContext"]];
    JArr [JStr (js "impl&lt;T&gt; <a class=\`trait\` href=\`https://doc.rust-lang.org/nightly/core/marker/trait.Unpin.html\` title=\`trait core::marker::Unpin\`>Unpin</a> for <a class=\`struct\` href=\`actix/utils/struct.Condition.html\` title=\`struct actix::utils::Condition\`>Condition</a>&lt;T&gt;"); JNum 1; JArr [JStr "actix::utils::Condition"]];
    JArr [JStr (js "impl&lt;'__pin, Fut, F&gt; <a class=\`trait\` href=\`https://doc.rust-lang.org/nightly/core/marker/trait.Unpin.html\` title=\`trait core::marker::Unpin\`>Unpin</a> for <a class=\`enum\` href=\`actix/fut/try_future/enum.MapErr.html\` title=\`enum actix::fut::try_future::MapErr\`>MapErr</a>&lt;Fut, F&gt;<span class=\`where fmt-newline\`>where\n    __Origin&lt;'__pin, Fut, F&gt;: <a class=\`trait\` href=\`https://doc.rust-lang.org/nightly/core/marker/trait.Unpin.html\` title=\`trait core::marker::Unpin\`>Unpin</a>,</span>")];
    JArr [JStr (js "impl&lt;'__pin, S&gt; <a class=\`trait\` href=\`https://doc.rust-lang.org/nightly/core/marker/trait.Unpin.html\` title=\`trait core::marker::Unpin\`>Unpin</a> for <a class=\`struct\` href=\`actix/fut/stream/struct.Timeout.html\` title=\`struct actix::fut::stream::Timeout\`>Timeout</a>&lt;S&gt;<span class=\`where fmt-newline\`>where\n    __Origin&lt;'__pin, S&gt;: <a class=\`trait\` href=\`https://doc.rust-lang.org/nightly/core/marker/trait.Unpin.html\` title=\`trait core::marker::Unpin\`>Unpin</a>,</span>")];
    JArr [JStr (js "impl&lt;'__pin, S, F, Fut&gt; <a class=\`trait\` href=\`https://doc.rust-lang.org/nightly/core/marker/trait.Unpin.html\` title=\`trait core::marker::Unpin\`>Unpin</a> for <a class=\`struct\` href=\`actix/fut/stream/struct.Then.html\` title=\`struct actix::fut::stream::Then\`>Then</a>&lt;S, F, Fut&gt;<span class=\`where fmt-newline\`>where\n    __Origin&lt;'__pin, S, F, Fut&gt;: <a class=\`trait\` href=\`https://doc.rust-lang.org/nightly/core/marker/trait.Unpin.html\` title=\`trait core::marker::Unpin\`>Unpin</a>,</span>")];
    JArr [JStr (js "impl&lt;'__pin, Fut, F&gt; <a class=\`trait\` href=\`https://doc.rust-lang.org/nightly/core/marker/trait.Unpin.html\` title=\`trait core::marker::Unpin\`>Unpin</a> for <a class=\`enum\` href=\`actix/fut/future/enum.Map.html\` title=\`enum actix::fut::future::Map\`>Map</a>&lt;Fut, F&gt;<span class=\`where fmt-newline\`>where\n    __Origin&lt;'__pin, Fut, F&gt;: <a class=\`trait\` href=\`https://doc.rust-lang.org/nightly/core/marker/trait.Unpin.html\` title=\`trait core::marker::Unpin\`>Unpin</a>,</span>")];
    JArr [JStr (js "impl&lt;'__pin, F&gt; <a class=\`trait\` href=\`https://doc.rust-lang.org/nightly/core/marker/trait.Unpin.html\` title=\`trait core::marker::Unpin\`>Unpin</a> for <a class=\`struct\` href=\`actix/fut/future/struct.Timeout.html\` title=\`struct actix::fut::future::Timeout\`>Timeout</a>&lt;F&gt;<span class=\`where fmt-newline\`>where\n    __Origin&lt;'__pin, F&gt;: <a class=\`trait\` href=\`https://doc.rust-lang.org/nightly/core/marker/trait.Unpin.html\` title=\`trait core::marker::Unpin\`>Unpin</a>,</span>")];
    JArr [JStr (js "impl&lt;'__pin, S, F&gt; <a class=\`trait\` href=\`https://doc.rust-lang.org/nightly/core/marker/trait.Unpin.html\` title=\`trait core::marker::Unpin\`>Unpin</a> for <a class=\`struct\` href=\`actix/fut/stream/struct.Map.html\` title=\`struct actix::fut::stream::Map\`>Map</a>&lt;S, F&gt;<span class=\`where fmt-newline\`>where\n    __Origin&lt;'__pin, S, F&gt;: <a class=\`trait\` href=\`https://doc.rust-lang.org/nightly/core/marker/trait.Unpin.html\` title=\`trait core::marker::Unpin\`>Unpin</a>,</span>")];
    JArr [JStr (js "impl&lt;'__pin, Fut, F&gt; <a class=\`trait\` href=\`https://doc.rust-lang.org/nightly/core/marker/trait.Unpin.html\` title=\`trait core::marker::Unpin\`>Unpin</a> for <a class=\`enum\` href=\`actix/fut/try_future/enum.MapOk.html\` title=\`enum actix::fut::try_future::MapOk\`>MapOk</a>&lt;Fut, F&gt;<span class=\`where fmt-newline\`>where\n    __Origin&lt;'__pin, Fut, F&gt;: <a class=\`trait\` href=\`https://doc.rust-lang.org/nightly/core/marker/trait.Unpin.html\` title=\`trait core::marker::Unpin\`>Unpin</a>,</span>")];
    JArr [JStr (js "impl&lt;'__pin, F, A&gt; <a class=\`trait\` href=\`https://doc.rust-lang.org/nightly/core/marker/trait.Unpin.html\` title=\`trait core::marker::Unpin\`>Unpin</a> for <a class=\`struct\` href=\`actix/fut/future/struct.FutureWrap.html\` title=\`struct actix::fut::future::FutureWrap\`>FutureWrap</a>&lt;F, A&gt;<span class=\`where fmt-newline\`>where\n    __Origin&lt;'__pin, F, A&gt;: <a class=\`trait\` href=\`https://doc.rust-lang.org/nightly/core/marker/trait.Unpin.html\` title=\`trait core::marker::Unpin\`>Unpin</a>,\n    F: <a class=\`trait\` href=\`https://doc.rust-lang.org/nightly/core/future/future/trait.Future.html\` title=\`trait core::future::future::Future\`>Future</a>,\n    A: <a class=\`trait\` href=\`actix/prelude/trait.Actor.html\` title=\`trait actix::prelude::Actor\`>Actor</a>,</span>")];
    JArr [JStr (js "impl&lt;'__pin, S, C&gt; <a class=\`trait\` href=\`https://doc.rust-lang.org/nightly/core/marker/trait.Unpin.html\` title=\`trait core::marker::Unpin\`>Unpin</a> for <a class=\`struct\` href=\`actix/fut/stream/struct.Collect.html\` title=\`struct actix::fut::stream::Collect\`>Collect</a>&lt;S, C&gt;<span class=\`where fmt-newline\`>where\n    __Origin&lt;'__pin, S, C&gt;: <a class=\`trait\` href=\`https://doc.rust-lang.org/nightly/core/marker/trait.Unpin.html\` title=\`trait core::marker::Unpin\`>Unpin</a>,</span>")];
    JArr [JStr (js "impl&lt;'__pin, S, F, Fut, T&gt; <a class=\`trait\` href=\`https://doc.rust-lang.org/nightly/core/marker/trait.Unpin.html\` title=\`trait core::marker::Unpin\`>Unpin</a> for <a class=\`struct\` href=\`actix/fut/stream/struct.Fold.html\` title=\`struct actix::fut::stream::Fold\`>Fold</a>&lt;S, F, Fut, T&gt;<span class=\`where fmt-newline\`>where\n    __Origin&lt;'__pin, S, F, Fut, T&gt;: <a class=\`trait\` href=\`https://doc.rust-lang.org/nightly/core/marker/trait.Unpin.html\` title=\`trait core::marker::Unpin\`>Unpin</a>,</span>")];
    JArr [JStr (js "impl&lt;'__pin, S, A&gt; <a class=\`trait\` href=\`https://doc.rust-lang.org/nightly/core/marker/trait.Unpin.html\` title=\`trait core::marker::Unpin\`>Unpin</a> for <a class=\`struct\` href=\`actix/fut/stream/struct.StreamWrap.html\` title=\`struct actix::fut::stream::StreamWrap\`>StreamWrap</a>&lt;S, A&gt;<span class=\`where fmt-newline\`>where\n    __Origin&lt;'__pin, S, A&gt;: <a class=\`trait\` href=\`https://doc.rust-lang.org/nightly/core/marker/trait.Unpin.html\` title=\`trait core::marker::Unpin\`>Unpin</a>,\n    S: <a class=\`trait\` href=\`actix/prelude/trait.Stream.html\` title=\`trait actix::prelude::Stream\`>Stream</a>,\n    A: <a class=\`trait\` href=\`actix/prelude/trait.Actor.html\` title=\`trait actix::prelude::Actor\`>Actor</a>,</span>")];
    JArr [JStr (js "impl&lt;'__pin, A: <a class=\`trait\` href=\`actix/prelude/trait.Actor.html\` title=\`trait actix::prelude::Actor\`>Actor</a>&gt; <a class=\`trait\` href=\`https://doc.rust-lang.org/nightly/core/marker/trait.Unpin.html\` title=\`trait core::marker::Unpin\`>Unpin</a> for <a class=\`struct\` href=\`actix/utils/struct.IntervalFunc.html\` title=\`struct actix::utils::IntervalFunc\`>IntervalFunc</a>&lt;A&gt;<span class=\`where fmt-newline\`>where\n    __Origin&lt;'__pin, A&gt;: <a class=\`trait\` href=\`https://doc.rust-lang.org/nightly/core/marker/trait.Unpin.html\` title=\`trait core::marker::Unpin\`>Unpin</a>,</span>")];
    JArr [JStr (js "impl&lt;'__pin, A: <a class=\`trait\` href=\`actix/prelude/trait.Actor.html\` title=\`trait actix::prelude::Actor\`>Actor</a>&gt; <a class=\`trait\` href=\`https://doc.rust-lang.org/nightly/core/marker/trait.Unpin.html\` title=\`trait core::marker::Unpin\`>Unpin</a> for <a class=\`struct\` href=\`actix/utils/struct.TimerFunc.html\` title=\`struct actix::utils::TimerFunc\`>TimerFunc</a>&lt;A&gt;<span class=\`where fmt-newline\`>where\n    __Origin&lt;'__pin, A&gt;: <a class=\`trait\` href=\`https://doc.rust-lang.org/nightly/core/marker/trait.Unpin.html\` title=\`trait core::marker::Unpin\`>Unpin</a>,</span>")];
    JArr [JStr (js "impl&lt;'__pin, S, I, F, Fut&gt; <a class=\`trait\` href=\`https://doc.rust-lang.org/nightly/core/marker/trait.Unpin.html\` title=\`trait core::marker::Unpin\`>Unpin</a> for <a class=\`struct\` href=\`actix/fut/stream/struct.SkipWhile.html\` title=\`struct actix::fut::stream::SkipWhile\`>SkipWhile</a>&lt;S, I, F, Fut&gt;<span class=\`where fmt-newline\`>where\n    __Origin&lt;'__pin, S, I, F, Fut&gt;: <a class=\`trait\` href=\`https://doc.rust-lang.org/nightly/core/marker/trait.Unpin.html\` title=\`trait core::marker::Unpin\`>Unpin</a>,</span>")];
    JArr [JStr (js "impl&lt;'__pin, A&gt; <a class=\`trait\` href=\`https://doc.rust-lang.org/nightly/core/marker/trait.Unpin.html\` title=\`trait core::marker::Unpin\`>Unpin</a> for <a class=\`struct\` href=\`actix/prelude/struct.Supervisor.html\` title=\`struct actix::prelude::Supervisor\`>Supervisor</a>&lt;A&gt;<span class=\`where fmt-newline\`>where\n    __Origin&lt;'__pin, A&gt;: <a class=\`trait\` href=\`https://doc.rust-lang.org/nightly/core/marker/trait.Unpin.html\` title=\`trait core::marker::Unpin\`>Unpin</a>,\n    A: <a class=\`trait\` href=\`actix/prelude/trait.Supervised.html\` title=\`trait actix::prelude::Supervised\`>Supervised</a> + <a class=\`trait\` href=\`actix/prelude/trait.Actor.html\` title=\`trait actix::prelude::Actor\`>Actor</a>&lt;Context = <a class=\`struct\` href=\`actix/prelude/struct.Context.html\` title=\`struct actix::prelude::Context\`>Context</a>&lt;A&gt;&gt;,</span>")];
    JArr [JStr (js "impl&lt;'__pin, S&gt; <a class=\`trait\` href=\`https://doc.rust-lang.org/nightly/core/marker/trait.Unpin.html\` title=\`trait core::marker::Unpin\`>Unpin</a> for <a class=\`struct\` href=\`actix/fut/stream/struct.Finish.html\` title=\`struct actix::fut::stream::Finish\`>Finish</a>&lt;S&gt;<span class=\`where fmt-newline\`>where\n    __Origin&lt;'__pin, S&gt;: <a class=\`trait\` href=\`https://doc.rust-lang.org/nightly/core/marker/trait.Unpin.html\` title=\`trait core::marker::Unpin\`>Unpin</a>,</span>")];
    JArr [JStr (js "impl&lt;'__pin, A, B, F&gt; <a class=\`trait\` href=\`https://doc.rust-lang.org/nightly/core/marker/trait.Unpin.html\` title=\`trait core::marker::Unpin\`>Unpin</a> for <a class=\`enum\` href=\`actix/fut/future/enum.Then.html\` title=\`enum actix::fut::future::Then\`>Then</a>&lt;A, B, F&gt;<span class=\`where fmt-newline\`>where\n    __Origin&lt;'__pin, A, B, F&gt;: <a class=\`trait\` href=\`https://doc.rust-lang.org/nightly/core/marker/trait.Unpin.html\` title=\`trait core::marker::Unpin\`>Unpin</a>,</span>")];
    JArr [JStr (js "impl&lt;'__pin, A, B, F&gt; <a class=\`trait\` href=\`https://doc.rust-lang.org/nightly/core/marker/trait.Unpin.html\` title=\`trait core::marker::Unpin\`>Unpin</a> for <a class=\`enum\` href=\`actix/fut/try_future/enum.AndThen.html\` title=\`enum actix::fut::try_future::AndThen\`>AndThen</a>&lt;A, B, F&gt;<span class=\`where fmt-newline\`>where\n    __Origin&lt;'__pin, A, B, F&gt;: <a class=\`trait\` href=\`https://doc.rust-lang.org/nightly/core/marker/trait.Unpin.html\` title=\`trait core::marker::Unpin\`>Unpin</a>,</span>")];
    JArr [JStr (js "impl&lt;'__pin, S, I, F, Fut&gt; <a class=\`trait\` href=\`https://doc.rust-lang.org/nightly/core/marker/trait.Unpin.html\` title=\`trait core::marker::Unpin\`>Unpin</a> for <a class=\`struct\` href=\`actix/fut/stream/struct.TakeWhile.html\` title=\`struct actix::fut::stream::TakeWhile\`>TakeWhile</a>&lt;S, I, F, Fut&gt;<span class=\`where fmt-newline\`>where\n    __Origin&lt;'__pin, S, I, F, Fut&gt;: <a class=\`trait\` href=\`https://doc.rust-lang.org/nightly/core/marker/trait.Unpin.html\` title=\`trait core::marker::Unpin\`>Unpin</a>,</span>")]
  ]);
  ("actix_broker", JArr [
    JArr [JStr (js "impl&lt;T&gt; <a class=\`trait\` href=\`https://doc.rust-lang.org/nightly/core/marker/trait.Unpin.html\` title=\`trait core::marker::Unpin\`>Unpin</a> for <a class=\`struct\` href=\`actix_broker/struct.Broker.html\` title=\`struct actix_broker::Broker\`>Broker</a>&lt;T&gt;<span class=\`where fmt-newline\`>where\n    T: <a class=\`trait\` href=\`https://doc.rust-lang.org/nightly/core/marker/trait.Unpin.html\` title=\`trait core::marker::Unpin\`>Unpin</a>,</span>"); JNum 1; JArr [JStr "actix_broker::broker::Broker"]];
    JArr [JStr (js "impl <a class=\`trait\` href=\`https://doc.rust-lang.org/nightly/core/marker/trait.Unpin.html\` title=\`trait core::marker::Unpin\`>Unpin</a> for <a class=\`struct\` href=\`actix_broker/struct.SystemBroker.html\` title=\`struct actix_broker::SystemBroker\`>SystemBroker</a>"); JNum 1; JArr [JStr "actix_broker::broker::SystemBroker"]];
    JArr [JStr (js "impl <a class=\`trait\` href=\`https://doc.rust-lang.org/nightly/core/marker/trait.Unpin.html\` title=\`trait core::marker::Unpin\`>Unpin</a> for <a class=\`struct\` href=\`actix_broker/struct.ArbiterBroker.html\` title=\`struct actix_broker::ArbiterBroker\`>ArbiterBroker</a>"); JNum 1; JArr [JStr "actix_broker::broker::ArbiterBroker"]]
  ])
].

(** ** The global object and the dispatch (line 4 of the source) *)

Abbreviation window := (gmap string jsval).

(** Property read [window.p]: a missing property is [undefined]. *)
Definition prop (w : window) (p : string) : jsval :=
  match w !! p with Some v => v | None => JUndef end.

Inductive completion : Type :=
  | Normal : completion
  | Throw (exn : jsval) : completion.

(** The fragment's own effects. *)
Inductive effect : Type :=
  | ECall (f : jsval) (args : list jsval) : effect
  | EWrite (p : string) (v : jsval) : effect.

(** The exception JS raises when a non-callable value is called. *)
Definition type_error : jsval := JObj [("name", JStr "TypeError")].

Section Fragment.

(** Behaviour of the JS function with object id [f] when called with the
    given arguments on the given window. *)
Variable hook : nat -> list jsval -> window -> completion * window.

(** Calling a value: only functions can be called. *)
Definition call (f : jsval) (args : list jsval) (w : window)
    : list effect * completion * window :=
  match f with
  | JFun id => let '(c, w') := hook id args w in ([ECall f args], c, w')
  | _ => ([], Throw type_error, w)
  end.

Definition fragment (w : window) : list effect * completion * window :=
  let tbl := implementors in
  if truthy (prop w "register_implementors") then
    call (prop w "register_implementors") [tbl] w
  else
    ([EWrite "pending_implementors" tbl], Normal,
     <["pending_implementors" := tbl]> w).

End Fragment.

(** ** Reading the table *)

Definition entries (t : jsval) : list (string * jsval) :=
  match t with JObj ps => ps | _ => [] end.

Definition elems (v : jsval) : list jsval :=
  match v with JArr l => l | _ => [] end.

Definition keys (t : jsval) : list string := map fst (entries t).

(** Every record of the table, paired with the key it is listed under. *)
Definition records (t : jsval) : list (string * jsval) :=
  flat_map (fun kv => map (pair kv.1) (elems kv.2)) (entries t).

(** The table carried by an effect: the single argument of a call, or the
    value written. *)
Definition effect_table (e : effect) : option jsval :=
  match e with
  | ECall _ [t] => Some t
  | ECall _ _ => None
  | EWrite _ t => Some t
  end.

Definition is_call (e : effect) : bool :=
  match e with ECall _ _ => true | EWrite _ _ => false end.

Definition is_str (v : jsval) : bool :=
  match v with JStr _ => true | _ => false end.

(** [[htmlMarkup: string, flag: number, pathSegments: string[]]]. *)
Definition triple_record (r : jsval) : bool :=
  match r with
  | JArr [JStr _; JNum _; JArr ps] => forallb is_str ps
  | _ => false
  end.

(** [[htmlMarkup: string]]. *)
Definition markup_only_record (r : jsval) : bool :=
  match r with JArr [JStr _] => true | _ => false end.

(** [{ [libraryName: string]: Array<record> }] for a record predicate. *)
Definition table_shape (rec_ok : jsval -> bool) (t : jsval) : bool :=
  match t with
  | JObj ps =>
      forallb (fun kv => match kv.2 with
                         | JArr rs => forallb rec_ok rs
                         | _ => false end) ps
  | _ => false
  end.

Definition wire_shape : jsval -> bool := table_shape triple_record.

Definition wire_shape_observed : jsval -> bool :=
  table_shape (fun r => triple_record r || markup_only_record r).

(** The hook, seen as the function with id [id], never changes the
    pending slot. *)
Definition hook_keeps_pending
    (hook : nat -> list jsval -> window -> completion * window) (id : nat) : Prop :=
  forall args w, prop (hook id args w).2 "pending_implementors"
                 = prop w "pending_implementors".

(** A recording hook used in examples: it stores its argument list in
    [window.captured]. *)
Definition recorder (id : nat) (args : list jsval) (w : window) : completion * window :=
  (Normal, <["captured" := JArr args]> w).

(** A hook that throws its argument count. *)
Definition thrower (id : nat) (args : list jsval) (w : window) : completion * window :=
  (Throw (JNum (Z.of_nat (length args))), w).

(** Boolean checks over the records of the table. *)
Definition flag_is_one (r : jsval) : bool :=
  match elems r with
  | _ :: JNum 1 :: _ => true
  | _ :: _ :: _ => false
  | _ => true
  end.

Definition path_under (k : string) (r : jsval) : bool :=
  match elems r with
  | _ :: _ :: JArr [JStr p] :: _ => String.prefix (k ++ "::") p
  | _ :: _ :: _ :: _ => false
  | _ => true
  end.

(** The markup string of a record (its first component). *)
Definition markup (r : jsval) : string :=
  match elems r with JStr s :: _ => s | _ => EmptyString end.

(** The path string of a record that has one. *)
Definition path_of (r : jsval) : option string :=
  match elems r with _ :: _ :: JArr [JStr p] :: _ => Some p | _ => None end.

Definition record_markups (t : jsval) : list string :=
  map (fun kr => markup kr.2) (records t).

Definition record_paths (t : jsval) : list string :=
  omap (fun kr => path_of kr.2) (records t).

(** ** Shared lemmas *)

Lemma fragment_falsy (hook : nat -> list jsval -> window -> completion * window)
    (w : window) :
  truthy (prop w "register_implementors") = false ->
  fragment hook w = ([EWrite "pending_implementors" implementors], Normal,
                     <["pending_implementors" := implementors]> w).
Proof. intros H. unfold fragment. now rewrite H. Qed.

Lemma fragment_function (hook : nat -> list jsval -> window -> completion * window)
    (w : window) (id : nat) :
  prop w "register_implementors" = JFun id ->
  fragment hook w = ([ECall (JFun id) [implementors]],
                     (hook id [implementors] w).1, (hook id [implementors] w).2).
Proof.
  intros H. unfold fragment, call. rewrite H. simpl.
  now destruct (hook id [implementors] w).
Qed.

Lemma prop_insert_eq (w : window) (p : string) (v : jsval) :
  prop (<[p := v]> w) p = v.
Proof. unfold prop. now rewrite lookup_insert_eq. Qed.

Lemma prop_insert_ne (w : window) (p q : string) (v : jsval) :
  p <> q -> prop (<[p := v]> w) q = prop w q.
Proof. intros H. unfold prop. now rewrite lookup_insert_ne. Qed.

Lemma prop_none (w : window) (p : string) : w !! p = None -> prop w p = JUndef.
Proof. intros H. unfold prop. now rewrite H. Qed.

(** Whatever the initial window, every effect of the fragment carries the
    compiled-in table. *)
Lemma fragment_effect_table (hook : nat -> list jsval -> window -> completion * window)
    (w : window) (e : effect) :
  In e (fragment hook w).1.1 -> effect_table e = Some implementors.
Proof.
  unfold fragment, call.
  destruct (truthy (prop w "register_implementors")).
  - destruct (prop w "register_implementors"); simpl; try tauto.
    destruct (hook id [implementors] w). simpl.
    intros [<- | []]. reflexivity.
  - simpl. intros [<- | []]. reflexivity.
Qed.

Lemma str_append_assoc (a b c : string) :
  String.append (String.append a b) c = String.append a (String.append b c).
Proof. induction a as [| x a IH]; [reflexivity |]. exact (f_equal (String x) IH). Qed.

Lemma prefix_app (s1 s2 : string) :
  String.prefix s1 s2 = true -> exists rest, s2 = (s1 ++ rest)%string.
Proof.
  revert s2. induction s1 as [| c s1 IH]; intros s2 H.
  - exists s2. reflexivity.
  - destruct s2 as [| d s2]; simpl in H; [discriminate |].
    destruct (Ascii.ascii_dec c d) as [-> |]; [| discriminate].
    destruct (IH s2 H) as [rest ->]. now exists rest.
Qed.

(** ** Claims *)

(** C1 (as stated, refuted): "exactly one of the two effects, never
    neither". With [window.register_implementors = 1] the reference is
    truthy but not callable: the call raises a TypeError and the fragment
    performs neither effect. *)
Lemma C1_non_callable_hook_neither :
  let w : window := {[ "register_implementors" := JNum 1 ]} in
  fragment recorder w = ([], Throw type_error, w).
Proof. reflexivity. Qed.

(** C1 (amended): the effects are decided by the value of the hook
    reference alone. If it is falsy, the only effect is the write of the
    table into the pending slot; if it is a function, the only effect is
    one call of it with the table; if it is truthy but not a function, there
    is no effect and a TypeError is thrown. *)
Theorem dispatch_by_hook_value
    (hook : nat -> list jsval -> window -> completion * window) (w : window) :
  let h := prop w "register_implementors" in
  ((truthy h = false /\
    (fragment hook w).1.1 = [EWrite "pending_implementors" implementors]) \/
   (exists id, h = JFun id /\
    (fragment hook w).1.1 = [ECall h [implementors]]) \/
   (truthy h = true /\ (forall id, h <> JFun id) /\
    (fragment hook w).1.1 = [] /\ (fragment hook w).1.2 = Throw type_error)).
Proof.
  cbv zeta. destruct (truthy (prop w "register_implementors")) eqn:Ht.
  - destruct (prop w "register_implementors") eqn:Hp.
    8: right; left; exists id; split; [reflexivity |];
       now rewrite (fragment_function hook w id Hp).
    all: right; right; unfold fragment, call; rewrite Hp, Ht;
         repeat split; try reflexivity; intros i Hi; discriminate Hi.
  - left. split; [reflexivity |]. now rewrite (fragment_falsy hook w Ht).
Qed.

(** C2: if the hook is a function before execution, the fragment's only
    effect is one call of it with the table as its only argument, made
    synchronously: the fragment's completion and final window are the
    ones the call returns, and the fragment itself writes nothing, so the
    pending slot keeps its value unless the hook itself changes it. *)
Theorem hook_present_called_once
    (hook : nat -> list jsval -> window -> completion * window)
    (w : window) (id : nat)
    (Hhook : prop w "register_implementors" = JFun id) :
  fragment hook w = ([ECall (JFun id) [implementors]],
                     (hook id [implementors] w).1, (hook id [implementors] w).2) /\
  (hook_keeps_pending hook id ->
   prop (fragment hook w).2 "pending_implementors" = prop w "pending_implementors").
Proof.
  rewrite (fragment_function hook w id Hhook). split; [reflexivity |].
  intros Hk. apply Hk.
Qed.

Lemma hook_present_called_once_witness :
  let w : window := {[ "register_implementors" := JFun 7 ]} in
  prop w "register_implementors" = JFun 7 /\
  fragment recorder w = ([ECall (JFun 7) [implementors]],
                         (recorder 7 [implementors] w).1,
                         (recorder 7 [implementors] w).2) /\
  (hook_keeps_pending recorder 7 ->
   prop (fragment recorder w).2 "pending_implementors"
   = prop w "pending_implementors").
Proof.
  cbv zeta. split; [reflexivity |].
  apply (hook_present_called_once recorder _ 7). reflexivity.
Defined.

(** C3: if the hook property is absent, the pending slot afterwards holds
    the table itself and the fragment makes no call. *)
Theorem hook_absent_table_pending
    (hook : nat -> list jsval -> window -> completion * window) (w : window)
    (Habsent : w !! "register_implementors" = None) :
  prop (fragment hook w).2 "pending_implementors" = implementors /\
  forallb is_call (fragment hook w).1.1 = false /\
  (fragment hook w).1.1 = [EWrite "pending_implementors" implementors].
Proof.
  assert (Hf : truthy (prop w "register_implementors") = false)
    by now rewrite (prop_none _ _ Habsent).
  rewrite (fragment_falsy hook w Hf). simpl.
  split; [apply prop_insert_eq | split; reflexivity].
Qed.

Lemma hook_absent_table_pending_witness :
  let w : window := {[ "pending_implementors" := JStr "old" ]} in
  w !! "register_implementors" = None /\
  prop (fragment recorder w).2 "pending_implementors" = implementors /\
  forallb is_call (fragment recorder w).1.1 = false /\
  (fragment recorder w).1.1 = [EWrite "pending_implementors" implementors].
Proof.
  cbv zeta. split; [reflexivity |].
  apply hook_absent_table_pending. reflexivity.
Defined.

(** C4: with the hook absent, whatever the pending slot held, the fragment
    completes normally and the slot holds the new table; running it a
    second time completes normally again and leaves the slot holding the
    table alone (the window is the one a single run produces). *)
Theorem hook_absent_overwrite_twice
    (hook : nat -> list jsval -> window -> completion * window) (w : window)
    (Habsent : w !! "register_implementors" = None) :
  let r1 := fragment hook w in
  let r2 := fragment hook r1.2 in
  r1.1.2 = Normal /\ prop r1.2 "pending_implementors" = implementors /\
  r2.1.2 = Normal /\ prop r2.2 "pending_implementors" = implementors /\
  r2.2 = <["pending_implementors" := implementors]> w.
Proof.
  cbv zeta.
  assert (Hf : truthy (prop w "register_implementors") = false)
    by now rewrite (prop_none _ _ Habsent).
  rewrite (fragment_falsy hook w Hf). simpl.
  assert (Hf2 : truthy (prop (<["pending_implementors" := implementors]> w)
                          "register_implementors") = false)
    by (rewrite prop_insert_ne by discriminate; exact Hf).
  rewrite (fragment_falsy hook _ Hf2). simpl.
  rewrite !prop_insert_eq, insert_insert_eq. repeat split.
Qed.

Lemma hook_absent_overwrite_twice_witness :
  let w : window := {[ "pending_implementors" := implementors ]} in
  w !! "register_implementors" = None /\
  (let r1 := fragment recorder w in
   let r2 := fragment recorder r1.2 in
   r1.1.2 = Normal /\ prop r1.2 "pending_implementors" = implementors /\
   r2.1.2 = Normal /\ prop r2.2 "pending_implementors" = implementors /\
   r2.2 = <["pending_implementors" := implementors]> w).
Proof.
  cbv zeta. split; [reflexivity |].
  apply (hook_absent_overwrite_twice recorder). reflexivity.
Defined.

(** C8: if the hook is a function that throws [e], the fragment completes
    by throwing the same [e], in the window the hook left, after its one
    call and with no write of its own; the pending slot is unchanged unless
    the hook itself changes it. *)
Theorem hook_exception_propagates
    (hook : nat -> list jsval -> window -> completion * window)
    (w : window) (id : nat) (e : jsval)
    (Hhook : prop w "register_implementors" = JFun id)
    (Hthrow : (hook id [implementors] w).1 = Throw e) :
  (fragment hook w).1.2 = Throw e /\
  (fragment hook w).2 = (hook id [implementors] w).2 /\
  (fragment hook w).1.1 = [ECall (JFun id) [implementors]] /\
  (hook_keeps_pending hook id ->
   prop (fragment hook w).2 "pending_implementors" = prop w "pending_implementors").
Proof.
  rewrite (fragment_function hook w id Hhook). simpl.
  repeat split; [exact Hthrow |]. intros Hk. apply Hk.
Qed.

Lemma hook_exception_propagates_witness :
  let w : window := {[ "register_implementors" := JFun 3;
                       "pending_implementors" := JNull ]} in
  prop w "register_implementors" = JFun 3 /\
  (thrower 3 [implementors] w).1 = Throw (JNum 1) /\
  ((fragment thrower w).1.2 = Throw (JNum 1) /\
   (fragment thrower w).2 = (thrower 3 [implementors] w).2 /\
   (fragment thrower w).1.1 = [ECall (JFun 3) [implementors]] /\
   (hook_keeps_pending thrower 3 ->
    prop (fragment thrower w).2 "pending_implementors"
    = prop w "pending_implementors")).
Proof.
  cbv zeta. split; [reflexivity |]. split; [reflexivity |].
  apply (hook_exception_propagates thrower _ 3); reflexivity.
Defined.

(** C9: the test is JS truthiness: a hook property that is present but
    holds a falsy value is not called, and the table is written to the
    pending slot. *)
Theorem falsy_hook_not_called
    (hook : nat -> list jsval -> window -> completion * window)
    (w : window) (v : jsval)
    (Hdef : w !! "register_implementors" = Some v)
    (Hfalsy : truthy v = false) :
  (fragment hook w).1.1 = [EWrite "pending_implementors" implementors] /\
  prop (fragment hook w).2 "pending_implementors" = implementors.
Proof.
  assert (Hf : truthy (prop w "register_implementors") = false)
    by (unfold prop; now rewrite Hdef).
  rewrite (fragment_falsy hook w Hf). simpl.
  split; [reflexivity | apply prop_insert_eq].
Qed.

Lemma falsy_hook_not_called_witness :
  let w : window := {[ "register_implementors" := JNum 0 ]} in
  w !! "register_implementors" = Some (JNum 0) /\ truthy (JNum 0) = false /\
  (fragment recorder w).1.1 = [EWrite "pending_implementors" implementors] /\
  prop (fragment recorder w).2 "pending_implementors" = implementors.
Proof.
  cbv zeta. split; [reflexivity |]. split; [reflexivity |].
  apply (falsy_hook_not_called recorder _ (JNum 0)); reflexivity.
Defined.

(** C5: the table handed across the boundary (as call argument or as the
    value written) is the compiled-in literal; its keys are exactly
    ["actix"] and ["actix_broker"], in that order, with 48 and 3 records. *)
Theorem table_keys_and_counts
    (hook : nat -> list jsval -> window -> completion * window)
    (w : window) (e : effect)
    (Hin : In e (fragment hook w).1.1) :
  exists t, effect_table e = Some t /\ t = implementors /\
    keys t = ["actix"; "actix_broker"] /\
    map (fun kv => length (elems kv.2)) (entries t) = [48; 3].
Proof.
  exists implementors. split; [exact (fragment_effect_table hook w e Hin) |].
  split; [reflexivity |]. split; vm_compute; reflexivity.
Qed.

Lemma table_keys_and_counts_witness :
  In (EWrite "pending_implementors" implementors) (fragment recorder ∅).1.1 /\
  exists t, effect_table (EWrite "pending_implementors" implementors) = Some t /\
    t = implementors /\ keys t = ["actix"; "actix_broker"] /\
    map (fun kv => length (elems kv.2)) (entries t) = [48; 3].
Proof.
  split; [simpl; left; reflexivity |].
  apply (table_keys_and_counts recorder ∅). simpl. left. reflexivity.
Defined.

(** C6 (as stated, refuted): not every record is a
    [[markup, flag, pathSegments]] triple; the table handed over on an
    empty window does not have that shape. *)
Lemma C6_not_all_triples :
  ~ (forall (hook : nat -> list jsval -> window -> completion * window)
            (w : window) (e : effect) (t : jsval),
       In e (fragment hook w).1.1 -> effect_table e = Some t ->
       wire_shape t = true).
Proof.
  intros H.
  assert (Hs := H recorder ∅ (EWrite "pending_implementors" implementors)
                  implementors (or_introl eq_refl) eq_refl).
  vm_compute in Hs. discriminate Hs.
Qed.

(** C6 (amended): every record of the table handed over is either a
    triple [[markup string, number, array of strings]] or a one-element
    array [[markup string]]; of the 48 records listed under ["actix"],
    19 are one-element arrays. *)
Theorem table_records_observed_shape
    (hook : nat -> list jsval -> window -> completion * window)
    (w : window) (e : effect) (t : jsval)
    (Hin : In e (fragment hook w).1.1) (Ht : effect_table e = Some t) :
  wire_shape_observed t = true /\
  length (filter (fun kr => String.eqb kr.1 "actix") (records t)) = 48%nat /\
  length (filter (fun kr => String.eqb kr.1 "actix" && markup_only_record kr.2)
                 (records t)) = 19%nat.
Proof.
  rewrite (fragment_effect_table hook w e Hin) in Ht.
  injection Ht as <-. repeat split; vm_compute; reflexivity.
Qed.

Lemma table_records_observed_shape_witness :
  In (EWrite "pending_implementors" implementors) (fragment recorder ∅).1.1 /\
  effect_table (EWrite "pending_implementors" implementors) = Some implementors /\
  (wire_shape_observed implementors = true /\
   length (filter (fun kr => String.eqb kr.1 "actix") (records implementors)) = 48%nat /\
   length (filter (fun kr => String.eqb kr.1 "actix" && markup_only_record kr.2)
                  (records implementors)) = 19%nat).
Proof.
  split; [simpl; left; reflexivity |]. split; [reflexivity |].
  apply (table_records_observed_shape recorder ∅
           (EWrite "pending_implementors" implementors)).
  - simpl. left. reflexivity.
  - reflexivity.
Defined.

(** C7 (as stated, refuted): some records have no second component: the
    30th ["actix"] record is the one-element array of its markup. *)
Lemma C7_flag_missing :
  exists k r, In (k, r) (records implementors) /\ length (elems r) = 1%nat /\
    ~ (exists f, elems r !! 1%nat = Some f /\ f = JNum 1).
Proof.
  destruct (nth_error (records implementors) 29) as [[k r] |] eqn:Hn;
    [| vm_compute in Hn; discriminate Hn].
  exists k, r. split; [eapply nth_error_In; exact Hn |].
  vm_compute in Hn. injection Hn as <- <-.
  split; [reflexivity |]. intros [f [Hf _]]. discriminate Hf.
Qed.

(** C7 (amended): every record that has a second component has it equal
    to the number 1; the records without one are 19, all listed under
    ["actix"], each the one-element array of its markup. *)
Theorem flag_one_when_present (k : string) (r f : jsval)
    (Hin : In (k, r) (records implementors))
    (Hf : elems r !! 1%nat = Some f) :
  f = JNum 1 /\
  length (filter (fun kr => Nat.ltb (length (elems kr.2)) 2) (records implementors))
    = 19%nat /\
  forallb (fun kr => String.eqb kr.1 "actix" && markup_only_record kr.2)
    (filter (fun kr => Nat.ltb (length (elems kr.2)) 2) (records implementors)) = true.
Proof.
  split; [| split; vm_compute; reflexivity].
  assert (Hall : forallb (fun kr => flag_is_one kr.2) (records implementors) = true)
    by (vm_compute; reflexivity).
  rewrite forallb_forall in Hall. specialize (Hall (k, r) Hin). simpl in Hall.
  unfold flag_is_one in Hall.
  destruct (elems r) as [| a [| b l]]; try discriminate Hf.
  simpl in Hf. injection Hf as ->.
  destruct f as [| | | z | | | |]; try discriminate Hall.
  destruct z as [| [p | p |] | p]; try discriminate Hall. reflexivity.
Qed.

Lemma flag_one_when_present_witness :
  In ("actix_broker", nth 50 (map snd (records implementors)) JUndef)
     (records implementors) /\
  elems (nth 50 (map snd (records implementors)) JUndef) !! 1%nat = Some (JNum 1) /\
  (JNum 1 = JNum 1 /\
   length (filter (fun kr => Nat.ltb (length (elems kr.2)) 2) (records implementors))
     = 19%nat /\
   forallb (fun kr => String.eqb kr.1 "actix" && markup_only_record kr.2)
     (filter (fun kr => Nat.ltb (length (elems kr.2)) 2) (records implementors)) = true).
Proof.
  assert (Hin : In ("actix_broker", nth 50 (map snd (records implementors)) JUndef)
                   (records implementors)).
  { apply (nth_error_In _ 50). vm_compute. reflexivity. }
  assert (Hf : elems (nth 50 (map snd (records implementors)) JUndef) !! 1%nat
               = Some (JNum 1)) by (vm_compute; reflexivity).
  split; [exact Hin |]. split; [exact Hf |].
  exact (flag_one_when_present "actix_broker" _ (JNum 1) Hin Hf).
Defined.

(** C10 (as stated, refuted): the first path segment of the first
    ["actix"] record is the whole path ["actix::actor::ActorState"], not the
    key ["actix"]. *)
Lemma C10_first_segment_not_key :
  exists r ps, In ("actix", r) (records implementors) /\
    elems r !! 2%nat = Some (JArr ps) /\
    head ps = Some (JStr "actix::actor::ActorState") /\
    head ps <> Some (JStr "actix").
Proof.
  destruct (nth_error (records implementors) 0) as [[k r] |] eqn:Hn;
    [| vm_compute in Hn; discriminate Hn].
  assert (Hin := nth_error_In _ _ Hn).
  vm_compute in Hn. injection Hn as <- <-.
  eexists _, _. split; [exact Hin |]. split; [reflexivity |].
  split; [reflexivity | discriminate].
Qed.

(** C10 (amended): every record with a third component has as path exactly
    one string, which begins with the key it is listed under followed by
    [::]. *)
Theorem path_starts_with_key (k : string) (r p : jsval)
    (Hin : In (k, r) (records implementors))
    (Hp : elems r !! 2%nat = Some p) :
  exists rest, p = JArr [JStr (k ++ "::" ++ rest)].
Proof.
  assert (Hall : forallb (fun kr => path_under kr.1 kr.2) (records implementors) = true)
    by (vm_compute; reflexivity).
  rewrite forallb_forall in Hall. specialize (Hall (k, r) Hin). simpl in Hall.
  unfold path_under in Hall.
  destruct (elems r) as [| a [| b [| c l]]]; try discriminate Hp.
  simpl in Hp. injection Hp as ->.
  destruct p as [| | | | | ps | |]; try discriminate Hall.
  destruct ps as [| [| | | | s | | |] [|]]; try discriminate Hall.
  destruct (prefix_app _ _ Hall) as [rest ->]. exists rest.
  now rewrite str_append_assoc.
Qed.

Lemma path_starts_with_key_witness :
  In ("actix", nth 0 (map snd (records implementors)) JUndef) (records implementors) /\
  elems (nth 0 (map snd (records implementors)) JUndef) !! 2%nat
    = Some (JArr [JStr "actix::actor::ActorState"]) /\
  exists rest, JArr [JStr "actix::actor::ActorState"] = JArr [JStr ("actix" ++ "::" ++ rest)].
Proof.
  assert (Hin : In ("actix", nth 0 (map snd (records implementors)) JUndef)
                   (records implementors)).
  { apply (nth_error_In _ 0). vm_compute. reflexivity. }
  assert (Hp : elems (nth 0 (map snd (records implementors)) JUndef) !! 2%nat
               = Some (JArr [JStr "actix::actor::ActorState"]))
    by (vm_compute; reflexivity).
  split; [exact Hin |]. split; [exact Hp |].
  exact (path_starts_with_key "actix" _ _ Hin Hp).
Defined.

(** ** Further properties of the fragment *)

(** Unless the hook reference is a function, the fragment changes no
    property of [window] other than [pending_implementors]; in particular it
    never installs, replaces or removes the hook. *)
Theorem fragment_frame_no_function
    (hook : nat -> list jsval -> window -> completion * window)
    (w : window) (q : string)
    (Hnf : forall id, prop w "register_implementors" <> JFun id)
    (Hq : q <> "pending_implementors") :
  prop (fragment hook w).2 q = prop w q.
Proof.
  destruct (truthy (prop w "register_implementors")) eqn:Ht.
  - unfold fragment, call. rewrite Ht.
    destruct (prop w "register_implementors") eqn:Hp; try reflexivity.
    exfalso. exact (Hnf id eq_refl).
  - rewrite (fragment_falsy hook w Ht). simpl.
    apply prop_insert_ne. congruence.
Qed.

Lemma fragment_frame_no_function_witness :
  let w : window := {[ "register_implementors" := JNull; "title" := JStr "Unpin" ]} in
  "title" <> "pending_implementors" /\
  (forall id, prop w "register_implementors" <> JFun id) /\
  prop (fragment recorder w).2 "title" = prop w "title".
Proof.
  cbv zeta.
  assert (Hnf : forall id, prop ({[ "register_implementors" := JNull;
                                    "title" := JStr "Unpin" ]} : window)
                              "register_implementors" <> JFun id)
    by (intros id; vm_compute; discriminate).
  assert (Hq : "title" <> "pending_implementors") by discriminate.
  split; [exact Hq |]. split; [exact Hnf |].
  exact (fragment_frame_no_function recorder _ "title" Hnf Hq).
Defined.

(** With a falsy hook reference, running the fragment a second time on the
    window the first run left gives the very same effects, completion and
    window as the first run. *)
Theorem fragment_falsy_idempotent
    (hook : nat -> list jsval -> window -> completion * window) (w : window)
    (Hf : truthy (prop w "register_implementors") = false) :
  fragment hook (fragment hook w).2 = fragment hook w.
Proof.
  rewrite (fragment_falsy hook w Hf). simpl.
  assert (Hf2 : truthy (prop (<["pending_implementors" := implementors]> w)
                          "register_implementors") = false)
    by (rewrite prop_insert_ne by discriminate; exact Hf).
  rewrite (fragment_falsy hook _ Hf2). now rewrite insert_insert_eq.
Qed.

Lemma fragment_falsy_idempotent_witness :
  let w : window := {[ "register_implementors" := JBool false ]} in
  truthy (prop w "register_implementors") = false /\
  fragment recorder (fragment recorder w).2 = fragment recorder w.
Proof.
  cbv zeta. split; [reflexivity |].
  apply fragment_falsy_idempotent. reflexivity.
Defined.

(** The fragment's effects are determined by the hook reference alone: two
    windows holding the same value in [register_implementors] give the same
    effects, whatever else they hold. *)
Theorem fragment_effects_by_hook_only
    (hook : nat -> list jsval -> window -> completion * window)
    (w1 w2 : window)
    (Hsame : prop w1 "register_implementors" = prop w2 "register_implementors") :
  (fragment hook w1).1.1 = (fragment hook w2).1.1.
Proof.
  unfold fragment, call. rewrite Hsame.
  destruct (truthy (prop w2 "register_implementors")); [| reflexivity].
  destruct (prop w2 "register_implementors"); try reflexivity.
  destruct (hook id [implementors] w1), (hook id [implementors] w2).
  reflexivity.
Qed.

Lemma fragment_effects_by_hook_only_witness :
  let w1 : window := {[ "register_implementors" := JFun 2 ]} in
  let w2 : window := {[ "register_implementors" := JFun 2;
                        "pending_implementors" := JStr "x" ]} in
  prop w1 "register_implementors" = prop w2 "register_implementors" /\
  (fragment recorder w1).1.1 = (fragment recorder w2).1.1.
Proof.
  cbv zeta. split; [reflexivity |].
  apply fragment_effects_by_hook_only. reflexivity.
Defined.

(** Every record's markup is an impl header: it begins with [impl]. *)
Theorem markups_start_with_impl (k : string) (r : jsval)
    (Hin : In (k, r) (records implementors)) :
  exists rest, markup r = ("impl" ++ rest)%string.
Proof.
  assert (Hall : forallb (fun kr => String.prefix "impl" (markup kr.2))
                   (records implementors) = true)
    by (vm_compute; reflexivity).
  rewrite forallb_forall in Hall.
  exact (prefix_app _ _ (Hall (k, r) Hin)).
Qed.

Lemma markups_start_with_impl_witness :
  In ("actix_broker", nth 48 (map snd (records implementors)) JUndef)
     (records implementors) /\
  exists rest, markup (nth 48 (map snd (records implementors)) JUndef)
               = ("impl" ++ rest)%string.
Proof.
  assert (Hin : In ("actix_broker", nth 48 (map snd (records implementors)) JUndef)
                   (records implementors)).
  { apply (nth_error_In _ 48). vm_compute. reflexivity. }
  split; [exact Hin |]. exact (markups_start_with_impl _ _ Hin).
Defined.

(** No implementation is listed twice: the markups of the 51 records are
    pairwise distinct, and so are the paths of the records that have one. *)
Theorem records_distinct :
  length (records implementors) = 51%nat /\
  NoDup (record_markups implementors) /\ NoDup (record_paths implementors).
Proof.
  split; [vm_compute; reflexivity |].
  split.
  - apply (bool_decide_eq_true_1 (NoDup (record_markups implementors))).
    vm_compute; reflexivity.
  - apply (bool_decide_eq_true_1 (NoDup (record_paths implementors))).
    vm_compute; reflexivity.
Qed.
